(** * sparqlee: expressions, operators and terms (lib/core/Expressions.ts)

    A shallow embedding of the expression module of sparqlee: the term
    hierarchy ([Literal] and its subclasses), the effective boolean value
    coercion, the conversion back to an RDF term, and the two operator
    classes that check their evaluated arguments before applying a
    computation ([SimpleOperator], [OverloadedOperator]).

    JavaScript exceptions are modelled by the error monad [Result]; an
    object is a record of its fields; a class is a tag on the record with the
    method selected by that tag, as dynamic dispatch does. *)

From Stdlib Require Import ZArith String List Bool Lia.
From Stdlib Require Import Floats.SpecFloat.
From stdpp Require Import base option list strings gmap.

Import ListNotations.
Local Open Scope string_scope.
Set Warnings "-register-all".

(** ** JavaScript values *)

(** A JavaScript number is an IEEE 754 double. *)
Definition number : Type := spec_float.

(** A [Date] object wraps a time value. *)
Record Date : Type := mkDate { timeValue : number }.

(** The values a literal's [typedValue] holds: the type arguments the
    classes of the module give to [Literal<T>]. *)
Inductive JsValue : Type :=
| JsUndefined
| JsBoolean (b : bool)
| JsNumber (x : number)
| JsString (s : string)
| JsDate (d : Date).

Definition isNaN (x : number) : bool :=
  match x with S754_nan => true | _ => false end.

Definition isZero (x : number) : bool :=
  match x with S754_zero _ => true | _ => false end.

Definition isFinite (x : number) : bool :=
  match x with S754_zero _ | S754_finite _ _ _ => true | _ => false end.

Definition isEmpty (s : string) : bool :=
  match s with EmptyString => true | String _ _ => false end.

(** [!!v]: the ToBoolean conversion. *)
Definition ToBoolean (v : JsValue) : bool :=
  match v with
  | JsUndefined => false
  | JsBoolean b => b
  | JsNumber x => negb (isZero x || isNaN x)
  | JsString s => negb (isEmpty s)
  | JsDate _ => true
  end.

(** The comparison [x != 0] of IEEE 754 on binary64, where NaN is unequal
    to everything. *)
Definition number_neq_zero (x : number) : bool :=
  negb (SFeqb x (S754_zero false)).

(** ** RDF terms *)

(** [RDF.NamedNode]: an IRI. *)
Record NamedNode : Type := mkNamedNode { value : string }.

(** The second argument of [RDFDM.literal]: a language tag (a string), a
    datatype (a named node), or nothing. *)
Inductive LanguageOrDatatype : Type :=
| ArgLanguage (language : string)
| ArgDatatype (datatype : NamedNode)
| ArgUndefined.

(** The term built by the data factory of rdf-data-model, kept as the call
    that built it. *)
Inductive RDFTerm : Type :=
| RDFDM_literal (value : string) (languageOrDatatype : LanguageOrDatatype).

Definition rdf_value (t : RDFTerm) : string :=
  match t with RDFDM_literal v _ => v end.

Definition rdf_languageOrDatatype (t : RDFTerm) : LanguageOrDatatype :=
  match t with RDFDM_literal _ a => a end.

(** ** Terms *)

(** [C.DataTypeCategory] and [ArgumentType] are unions of string literal
    types: at run time a category is a string. *)
Definition DataTypeCategory : Type := string.
Definition ArgumentType : Type := string.

Inductive TermType : Type := literal | variable.

Definition TermType_string (t : TermType) : string :=
  match t with literal => "literal" | variable => "variable" end.

(** The classes of the [Literal] hierarchy. *)
Inductive LiteralClass : Type :=
| BaseLiteral
| NumericLiteral
| BooleanLiteral
| DateTimeLiteral
| PlainLiteral
| StringLiteral
| NonLexicalLiteral.

(** A [Literal] object: its class and its fields. *)
Record Literal : Type := mkLiteral {
  class_of : LiteralClass;
  typedValue : JsValue;
  strValue : option string;
  dataType : option NamedNode;
  language : option string;
  category : DataTypeCategory
}.

(** An [ITermExpression]: a literal, or a term of another class, which
    has a [termType] and no [category] field. *)
Inductive ITermExpression : Type :=
| LiteralTerm (l : Literal)
| OtherTerm (termType : TermType).

Definition termType (a : ITermExpression) : TermType :=
  match a with
  | LiteralTerm _ => literal
  | OtherTerm t => t
  end.

(** ** Expressions *)

Inductive OperatorClass : Type := simple | overloaded | special.

(** [Algebra.Operation] of sparqlalgebrajs, opaque here. *)
Record AlgebraOperation : Type :=
  mkAlgebraOperation { operation_type : string }.

Inductive IExpression : Type :=
| AggregateExpression (aggregator : string) (distinct : bool)
    (separator : option string) (expression : IExpression)
| ExistenceExpression (not_ : bool) (input : AlgebraOperation)
| NamedExpression (name : NamedNode) (args : list IExpression)
| OperatorExpression (operator : string) (args : list IExpression)
    (operatorClass : OperatorClass)
| TermExpression (term : ITermExpression)
| VariableExpression (name : string).

Inductive expressionTypes : Type :=
| AGGREGATE | EXISTENCE | NAMED | OPERATOR | TERM | VARIABLE.

Definition expressionType (e : IExpression) : expressionTypes :=
  match e with
  | AggregateExpression _ _ _ _ => AGGREGATE
  | ExistenceExpression _ _ => EXISTENCE
  | NamedExpression _ _ => NAMED
  | OperatorExpression _ _ _ => OPERATOR
  | TermExpression _ => TERM
  | VariableExpression _ => VARIABLE
  end.

(** ** Errors *)

(** A [TypeError] is either built by the code with a message, or raised by
    the engine when a property of [undefined] is read. *)
Inductive TypeErrorCause : Type :=
| Message (message : string)
| ReadPropertyOfUndefined (property : string).

Inductive Error : Type :=
| InvalidArity (args : list IExpression) (operator : string)
| InvalidArgumentTypes (args : list ITermExpression) (operator : string)
| UnimplementedError
| TypeError (cause : TypeErrorCause).

Inductive ErrorClass : Type :=
| InvalidArityClass | InvalidArgumentTypesClass | UnimplementedErrorClass
| TypeErrorClass.

Definition error_class (e : Error) : ErrorClass :=
  match e with
  | InvalidArity _ _ => InvalidArityClass
  | InvalidArgumentTypes _ _ => InvalidArgumentTypesClass
  | UnimplementedError => UnimplementedErrorClass
  | TypeError _ => TypeErrorClass
  end.

(** The outcome of a call: a value, or a thrown error. *)
Inductive Result (A : Type) : Type :=
| Return (a : A)
| Throw (e : Error).

Arguments Return {A} a.
Arguments Throw {A} e.

Definition bind {A B : Type} (r : Result A) (k : A -> Result B) : Result B :=
  match r with
  | Return a => k a
  | Throw e => Throw e
  end.

Notation "'do' x <- r ; k" := (bind r (fun x => k))
  (at level 10, x name, r at level 100, k at level 200).

Definition returns {A : Type} (r : Result A) : bool :=
  match r with Return _ => true | Throw _ => false end.

Definition throws_class {A : Type} (r : Result A) (c : ErrorClass) : Prop :=
  exists e, r = Throw e /\ error_class e = c.

(** ** Literals *)

Section Literals.

(** [C.categorize] of util/Consts, which maps a datatype IRI to its
    category. Its table is not among the sources of this module; it is a
    total function, and nothing below depends on the table. *)
Variable categorize : string -> DataTypeCategory.

(** [Number.prototype.toString] and [Date.prototype.toString] of the host. *)
Variable Number_toString : number -> string.
Variable Date_toString : Date -> string.

(** The constructor of [Literal], which every subclass but
    [NonLexicalLiteral] inherits: the parameter properties are stored, then
    the category is computed from [dataType.value]; reading [value] of an
    absent datatype throws. *)
Definition new_Literal (c : LiteralClass) (typedValue0 : JsValue)
    (strValue0 : option string) (dataType0 : option NamedNode)
    (language0 : option string) : Result Literal :=
  match dataType0 with
  | None => Throw (TypeError (ReadPropertyOfUndefined "value"))
  | Some d =>
      Return {| class_of := c; typedValue := typedValue0;
                strValue := strValue0; dataType := dataType0;
                language := language0; category := categorize (value d) |}
  end.

(** The subclasses declare no constructor of their own. ([NumericLiteral]
    declares the field [category] again, with no initialiser, which emits no
    code.) *)
Definition new_NumericLiteral (typedValue0 : number) :=
  new_Literal NumericLiteral (JsNumber typedValue0).

Definition new_BooleanLiteral (typedValue0 : bool) :=
  new_Literal BooleanLiteral (JsBoolean typedValue0).

Definition new_DateTimeLiteral (typedValue0 : Date) :=
  new_Literal DateTimeLiteral (JsDate typedValue0).

Definition new_PlainLiteral (typedValue0 : string) :=
  new_Literal PlainLiteral (JsString typedValue0).

Definition new_StringLiteral (typedValue0 : string) :=
  new_Literal StringLiteral (JsString typedValue0).

(** The constructor of [NonLexicalLiteral]: the super constructor runs
    first, then the typed value and the category are overwritten. *)
Definition new_NonLexicalLiteral (typedValue0 : JsValue)
    (strValue0 : option string) (dataType0 : option NamedNode)
    (language0 : option string) : Result Literal :=
  do this <- new_Literal NonLexicalLiteral typedValue0 strValue0 dataType0
               language0;
  Return {| class_of := class_of this; typedValue := JsUndefined;
            strValue := strValue this; dataType := dataType this;
            language := language this; category := "untyped" |}.

(** *** Effective boolean value *)

(** [Term.coerceEBV], inherited by the classes that do not override it. *)
Definition Term_coerceEBV : Result bool :=
  Throw (TypeError (Message "Cannot coerce this term to EBV.")).

(** [NumericLiteral.coerceEBV]: [!!this.typedValue]. *)
Definition NumericLiteral_coerceEBV (this : Literal) : Result bool :=
  Return (ToBoolean (typedValue this)).

(** [BooleanLiteral.coerceEBV]: [!!this.typedValue]. *)
Definition BooleanLiteral_coerceEBV (this : Literal) : Result bool :=
  Return (ToBoolean (typedValue this)).

(** [PlainLiteral.coerceEBV]: [this.strValue.length !== 0]. A string has
    length 0 exactly when it has no character, in whatever unit the length
    is counted. *)
Definition PlainLiteral_coerceEBV (this : Literal) : Result bool :=
  match strValue this with
  | None => Throw (TypeError (ReadPropertyOfUndefined "length"))
  | Some s => Return (negb (String.length s =? 0)%nat)
  end.

(** [StringLiteral.coerceEBV]: [this.strValue.length !== 0]. *)
Definition StringLiteral_coerceEBV (this : Literal) : Result bool :=
  match strValue this with
  | None => Throw (TypeError (ReadPropertyOfUndefined "length"))
  | Some s => Return (negb (String.length s =? 0)%nat)
  end.

(** The method a call [l.coerceEBV()] reaches. *)
Definition coerceEBV (this : Literal) : Result bool :=
  match class_of this with
  | NumericLiteral => NumericLiteral_coerceEBV this
  | BooleanLiteral => BooleanLiteral_coerceEBV this
  | PlainLiteral => PlainLiteral_coerceEBV this
  | StringLiteral => StringLiteral_coerceEBV this
  | BaseLiteral | DateTimeLiteral | NonLexicalLiteral => Term_coerceEBV
  end.

(** *** Conversion to an RDF term *)

(** [v.toString()]. *)
Definition toString (v : JsValue) : Result string :=
  match v with
  | JsUndefined => Throw (TypeError (ReadPropertyOfUndefined "toString"))
  | JsBoolean b => Return (if b then "true" else "false")
  | JsNumber x => Return (Number_toString x)
  | JsString s => Return s
  | JsDate d => Return (Date_toString d)
  end.

(** [this.strValue || this.typedValue.toString()]: a string is truthy when
    it is present and not empty. *)
Definition toRDF_value (this : Literal) : Result string :=
  match strValue this with
  | Some s => if isEmpty s then toString (typedValue this) else Return s
  | None => toString (typedValue this)
  end.

Definition optionalDatatype (d : option NamedNode) : LanguageOrDatatype :=
  match d with
  | Some d => ArgDatatype d
  | None => ArgUndefined
  end.

(** [this.language || this.dataType] *)
Definition toRDF_languageOrDatatype (this : Literal) : LanguageOrDatatype :=
  match language this with
  | Some lang =>
      if isEmpty lang then optionalDatatype (dataType this)
      else ArgLanguage lang
  | None => optionalDatatype (dataType this)
  end.

(** [Literal.toRDF], inherited by every subclass. *)
Definition toRDF (this : Literal) : Result RDFTerm :=
  do v <- toRDF_value this;
  Return (RDFDM_literal v (toRDF_languageOrDatatype this)).

End Literals.

(** ** Operators *)

(** The type an operator sees in an evaluated argument:
    [a.category || a.termType]. A literal has a category, which is used
    unless it is the empty string; a term of another class has none. *)
Definition argumentType (a : ITermExpression) : ArgumentType :=
  match a with
  | LiteralTerm l =>
      if isEmpty (category l) then TermType_string literal else category l
  | OtherTerm t => TermType_string t
  end.

(** [args.map((a: any) => a.category || a.termType)] *)
Definition argumentTypes (args : list ITermExpression) : list ArgumentType :=
  map argumentType args.

Definition SimpleEvaluator : Type :=
  list ITermExpression -> Result ITermExpression.

(** [OverloadMap]: an immutable.js [Map] whose keys are immutable.js
    [List]s, which are compared by their contents. *)
Abbreviation OverloadMap := (gmap (list ArgumentType) SimpleEvaluator).

Module SimpleOperator.

Record t : Type := mk {
  operator : string;
  arity : Z;
  args : list IExpression;
  types : list ArgumentType;
  _apply : SimpleEvaluator
}.

Definition expressionType (this : t) : expressionTypes := OPERATOR.
Definition operatorClass (this : t) : OperatorClass := simple.

(** The constructor: the parameter properties are stored, then the
    number of argument expressions is compared with the arity. *)
Definition new (operator0 : string) (arity0 : Z) (args0 : list IExpression)
    (types0 : list ArgumentType) (_apply0 : SimpleEvaluator) : Result t :=
  let this := mk operator0 arity0 args0 types0 _apply0 in
  if negb (Z.of_nat (length args0) =? arity this)%Z
  then Throw (InvalidArity args0 (operator this))
  else Return this.

(** [_.isEqual(this.types, argTypes)] *)
Definition _isValidTypes (this : t) (args0 : list ITermExpression) : bool :=
  let argTypes := argumentTypes args0 in
  bool_decide (types this = argTypes).

Definition apply (this : t) (args0 : list ITermExpression)
    : Result ITermExpression :=
  if negb (_isValidTypes this args0)
  then Throw (InvalidArgumentTypes args0 (operator this))
  else _apply this args0.

End SimpleOperator.

Module OverloadedOperator.

(** The class declares two fields for the overload table: the public
    parameter property [overloadMap], and the private [_overloadMap],
    which has no initialiser. *)
Record t : Type := mk {
  operator : string;
  arity : Z;
  args : list IExpression;
  overloadMap : OverloadMap;
  _overloadMap : option OverloadMap
}.

Definition expressionType (this : t) : expressionTypes := OPERATOR.
Definition operatorClass (this : t) : OperatorClass := overloaded.

(** The constructor stores the parameter properties and checks the arity;
    it does not assign [_overloadMap], which stays [undefined]. *)
Definition new (operator0 : string) (arity0 : Z) (args0 : list IExpression)
    (overloadMap0 : OverloadMap) : Result t :=
  let this := mk operator0 arity0 args0 overloadMap0 None in
  if negb (Z.of_nat (length args0) =? arity this)%Z
  then Throw (InvalidArity args0 (operator this))
  else Return this.

(** [this._overloadMap.get(argTypes)]: reading [get] of [undefined]
    throws; a key that is not in the map gives [undefined]. *)
Definition _monomorph (this : t) (args0 : list ITermExpression)
    : Result (option SimpleEvaluator) :=
  let argTypes := argumentTypes args0 in
  match _overloadMap this with
  | None => Throw (TypeError (ReadPropertyOfUndefined "get"))
  | Some m => Return (m !! argTypes)
  end.

Definition apply (this : t) (args0 : list ITermExpression)
    : Result ITermExpression :=
  do func <- _monomorph this args0;
  match func with
  | None => Throw (InvalidArgumentTypes args0 (operator this))
  | Some func => func args0
  end.

End OverloadedOperator.

(** ** Concrete datatypes, literals and operators *)

Definition xsd (local : string) : NamedNode :=
  mkNamedNode ("http://www.w3.org/2001/XMLSchema#" ++ local).

Definition rdf_langString : NamedNode :=
  mkNamedNode "http://www.w3.org/1999/02/22-rdf-syntax-ns#langString".

(** Modelled from the spec: [C.categorize] of util/Consts is not among the
    sources. The spec makes it a total function from datatype identifiers
    to a fixed enumeration of categories (integer, decimal, float, double,
    boolean, string, plain string, date and time, untyped), which maps an
    unrecognised datatype to a defined category. This table is one such
    function; it is used to run the constructors on concrete literals. *)
Definition categorize_xsd (dataType0 : string) : DataTypeCategory :=
  if String.eqb dataType0 (value (xsd "integer")) then "integer"
  else if String.eqb dataType0 (value (xsd "decimal")) then "decimal"
  else if String.eqb dataType0 (value (xsd "float")) then "float"
  else if String.eqb dataType0 (value (xsd "double")) then "double"
  else if String.eqb dataType0 (value (xsd "boolean")) then "boolean"
  else if String.eqb dataType0 (value (xsd "string")) then "string"
  else if String.eqb dataType0 (value rdf_langString) then "plain"
  else if String.eqb dataType0 (value (xsd "dateTime")) then "dateTime"
  else "untyped".

(** A host for the concrete literals below. None of them renders a number
    or a date, so the two conversions are not reached; the constant
    functions stand for them. *)
Definition host_Number_toString (x : number) : string := "NaN".
Definition host_Date_toString (d : Date) : string := "Invalid Date".

(** The double 1, and the double 2. *)
Definition one : number := S754_finite false 1 0.
Definition two : number := S754_finite false 1 1.

(** A computation for the operators below: the first argument. *)
Definition first_argument : SimpleEvaluator :=
  fun args0 =>
    match args0 with
    | a :: _ => Return a
    | [] => Throw UnimplementedError
    end.

(** A computation that ignores its arguments. *)
Definition constant_term (t : ITermExpression) : SimpleEvaluator :=
  fun _ => Return t.

(** The overload table of an operator [+] on two integers. *)
Definition plus_overloads : OverloadMap :=
  {[ ["integer"; "integer"] := first_argument ]}.

(** Two integer literals, and the operator [+] applied to them. *)
Definition integer_literal (lexical : string) (x : number) : Result Literal :=
  new_NumericLiteral categorize_xsd x (Some lexical) (Some (xsd "integer"))
    None.

(** An operator object whose private table holds the overloads of [+]. *)
Definition plus_with_table : OverloadedOperator.t :=
  OverloadedOperator.mk "+" 2
    [VariableExpression "x"; VariableExpression "y"]
    plus_overloads (Some plus_overloads).

(** Two integer literals with different values and lexical forms. *)
Definition literal_1 : Literal :=
  mkLiteral NumericLiteral (JsNumber one) (Some "1") (Some (xsd "integer"))
    None "integer".

Definition literal_2 : Literal :=
  mkLiteral NumericLiteral (JsNumber two) (Some "2") (Some (xsd "integer"))
    None "integer".

(** The simple string literal "abc". *)
Definition literal_abc : Literal :=
  mkLiteral StringLiteral (JsString "abc") (Some "abc") (Some (xsd "string"))
    None "string".

(** The operator [STRLEN] on one string, constructed with its one argument
    expression. *)
Definition strlen_operator : SimpleOperator.t :=
  SimpleOperator.mk "strlen" 1 [VariableExpression "s"] ["string"]
    first_argument.

(** The boolean literal [true] with an empty lexical string. *)
Definition true_without_lexical : Literal :=
  mkLiteral BooleanLiteral (JsBoolean true) (Some "") (Some (xsd "boolean"))
    None "boolean".

(** ** Variables and special operators *)

(** The class [Variable]: its constructor stores the name. *)
Module VariableClass.

Record t : Type := mk { name : string }.

Definition new (name0 : string) : t := mk name0.

Definition expressionType (this : t) : expressionTypes := VARIABLE.

End VariableClass.

(** [SpecialOperators]: the names ['bound'], ['||'] and ['&&']. *)
Inductive SpecialOperators : Type := bound | logical_or | logical_and.

(** The abstract class [SpecialOperatorAsync]: its constructor stores the
    operator and the argument expressions and checks nothing. Its [apply]
    is abstract and asynchronous, and has no body in this module. *)
Module SpecialOperatorAsync.

Record t : Type := mk {
  operator : SpecialOperators;
  args : list IExpression
}.

Definition new (operator0 : SpecialOperators) (args0 : list IExpression) : t :=
  mk operator0 args0.

Definition expressionType (this : t) : expressionTypes := OPERATOR.
Definition operatorClass (this : t) : OperatorClass := special.

End SpecialOperatorAsync.

(** The non-lexical literal of the lexical form "abc" and the datatype
    xsd:integer. *)
Definition non_lexical_abc : Literal :=
  mkLiteral NonLexicalLiteral JsUndefined (Some "abc") (Some (xsd "integer"))
    None "untyped".

(** The operator [ABS] on one integer. *)
Definition abs_operator : SimpleOperator.t :=
  SimpleOperator.mk "abs" 1 [VariableExpression "x"] ["integer"]
    first_argument.

(** An operator whose signature holds the empty string. *)
Definition blank_signature_operator : SimpleOperator.t :=
  SimpleOperator.mk "blank" 1 [VariableExpression "x"] [""] first_argument.


(** * Properties *)

(** ** The error monad *)

Lemma bind_Return {A B : Type} (a : A) (k : A -> Result B) :
  bind (Return a) k = k a.
Proof. reflexivity. Qed.

Lemma bind_Throw {A B : Type} (e : Error) (k : A -> Result B) :
  bind (Throw e) k = Throw e.
Proof. reflexivity. Qed.

Lemma bind_returns {A B : Type} (r : Result A) (k : A -> Result B) (b : B) :
  bind r k = Return b -> exists a, r = Return a /\ k a = Return b.
Proof.
  destruct r as [a | e]; simpl; intros H.
  - exists a. split; [reflexivity | exact H].
  - discriminate H.
Qed.

Lemma isEmpty_spec (s : string) : isEmpty s = true <-> s = "".
Proof. destruct s; simpl; split; intros H; congruence. Qed.

Lemma isEmpty_length (s : string) :
  negb (String.length s =? 0)%nat = negb (isEmpty s).
Proof. destruct s; reflexivity. Qed.

(** ** Truthiness of numbers *)

(** [!!x] is false exactly on the two zeros and on NaN. *)
Lemma ToBoolean_number_false (x : number) :
  ToBoolean (JsNumber x) = false <-> isZero x = true \/ isNaN x = true.
Proof.
  simpl. rewrite negb_false_iff, orb_true_iff. reflexivity.
Qed.

(** On every number but NaN, [!!x] is the comparison [x != 0]. *)
Lemma ToBoolean_number_neq_zero (x : number) :
  isNaN x = false -> ToBoolean (JsNumber x) = number_neq_zero x.
Proof.
  unfold number_neq_zero, SFeqb.
  destruct x as [s | s | | s m e]; simpl; intros H;
    try discriminate H; try reflexivity; destruct s; reflexivity.
Qed.

(** On NaN the two differ: [NaN != 0] holds, and [!!NaN] is false. *)
Lemma ToBoolean_NaN :
  ToBoolean (JsNumber S754_nan) = false /\ number_neq_zero S754_nan = true.
Proof. split; reflexivity. Qed.

(** ** Effective boolean value *)

Lemma coerceEBV_numeric (l : Literal) :
  class_of l = NumericLiteral ->
  coerceEBV l = Return (ToBoolean (typedValue l)).
Proof. unfold coerceEBV. intros ->. reflexivity. Qed.

Lemma coerceEBV_boolean (l : Literal) :
  class_of l = BooleanLiteral ->
  coerceEBV l = Return (ToBoolean (typedValue l)).
Proof. unfold coerceEBV. intros ->. reflexivity. Qed.

Lemma coerceEBV_string (l : Literal) (s : string) :
  class_of l = PlainLiteral \/ class_of l = StringLiteral ->
  strValue l = Some s ->
  coerceEBV l = Return (negb (String.length s =? 0)%nat).
Proof.
  unfold coerceEBV, PlainLiteral_coerceEBV, StringLiteral_coerceEBV.
  intros [-> | ->] ->; reflexivity.
Qed.

Lemma coerceEBV_string_without_lexical (l : Literal) :
  class_of l = PlainLiteral \/ class_of l = StringLiteral ->
  strValue l = None ->
  coerceEBV l = Throw (TypeError (ReadPropertyOfUndefined "length")).
Proof.
  unfold coerceEBV, PlainLiteral_coerceEBV, StringLiteral_coerceEBV.
  intros [-> | ->] ->; reflexivity.
Qed.

Lemma coerceEBV_other (l : Literal) :
  class_of l = BaseLiteral \/ class_of l = DateTimeLiteral
    \/ class_of l = NonLexicalLiteral ->
  coerceEBV l = Term_coerceEBV.
Proof. unfold coerceEBV. intros [-> | [-> | ->]]; reflexivity. Qed.

(** The effective boolean value of a literal is decided by its variant. A
    numeric literal gives [!!value]: false on 0, -0 and NaN, true on every
    other number, so on every nonzero finite one, and equal to
    [value != 0] except on NaN. A boolean literal gives its value. A plain
    or a simple string literal whose lexical form is present gives
    [length(lexical) != 0]. A literal of any other variant (the base class,
    a date and time, a non-lexical literal, which is the untyped one) fails
    with the [TypeError] "Cannot coerce this term to EBV.". *)
Theorem coerceEBV_by_variant :
  (forall l x, class_of l = NumericLiteral -> typedValue l = JsNumber x ->
     coerceEBV l = Return (negb (isZero x || isNaN x))
     /\ (isZero x = true \/ isNaN x = true -> coerceEBV l = Return false)
     /\ (isFinite x = true -> isZero x = false -> coerceEBV l = Return true)
     /\ (isNaN x = false -> coerceEBV l = Return (number_neq_zero x)))
  /\ (forall l b, class_of l = BooleanLiteral -> typedValue l = JsBoolean b ->
        coerceEBV l = Return b)
  /\ (forall l s, class_of l = PlainLiteral \/ class_of l = StringLiteral ->
        strValue l = Some s ->
        coerceEBV l = Return (negb (String.length s =? 0)%nat))
  /\ (forall l, class_of l = BaseLiteral \/ class_of l = DateTimeLiteral
          \/ class_of l = NonLexicalLiteral ->
        coerceEBV l
        = Throw (TypeError (Message "Cannot coerce this term to EBV.")))
  /\ (forall categorize tv sv dt lang l,
        new_NonLexicalLiteral categorize tv sv dt lang = Return l ->
        category l = "untyped"
        /\ coerceEBV l
           = Throw (TypeError (Message "Cannot coerce this term to EBV."))).
Proof.
  split; [ | split; [ | split; [ | split]]].
  - intros l x Hc Hv. rewrite (coerceEBV_numeric l Hc), Hv.
    split; [reflexivity | ]. split; [ | split].
    + intros Hz. f_equal. apply ToBoolean_number_false. exact Hz.
    + intros Hfin Hnz. f_equal.
      destruct x; simpl in *; try discriminate; reflexivity.
    + intros Hnan. f_equal. apply ToBoolean_number_neq_zero. exact Hnan.
  - intros l b Hc Hv. rewrite (coerceEBV_boolean l Hc), Hv. reflexivity.
  - intros l s Hc Hs. exact (coerceEBV_string l s Hc Hs).
  - intros l Hc. exact (coerceEBV_other l Hc).
  - intros categorize tv sv dt lang l H.
    unfold new_NonLexicalLiteral, new_Literal in H.
    destruct dt; simpl in H; [ | discriminate H].
    injection H as <-. split; reflexivity.
Qed.

(** The effective boolean values of 0, NaN, 1, the empty string and "abc". *)
Example coerceEBV_examples :
  coerceEBV (mkLiteral NumericLiteral (JsNumber (S754_zero false)) (Some "0")
               (Some (xsd "integer")) None "integer") = Return false
  /\ coerceEBV (mkLiteral NumericLiteral (JsNumber S754_nan) (Some "NaN")
                  (Some (xsd "double")) None "double") = Return false
  /\ coerceEBV literal_1 = Return true
  /\ coerceEBV (mkLiteral StringLiteral (JsString "") (Some "")
                  (Some (xsd "string")) None "string") = Return false
  /\ coerceEBV (mkLiteral StringLiteral (JsString "abc") (Some "abc")
                  (Some (xsd "string")) None "string") = Return true
  /\ coerceEBV (mkLiteral NonLexicalLiteral JsUndefined (Some "abc")
                  (Some (xsd "integer")) None "untyped")
     = Throw (TypeError (Message "Cannot coerce this term to EBV.")).
Proof. repeat split. Qed.

(** C1, at the failing input. A plain literal and a simple string literal
    are built with a datatype and without a lexical form, as the optional
    [strValue] allows. Their coercion reads [length] of [undefined] and
    throws, where the strings "chat" and "abc" are not empty and the value
    is to be true; [toRDF], on the same literals, falls back on the typed
    value. *)
Theorem coerceEBV_string_literal_without_lexical :
  (do l <- new_PlainLiteral categorize_xsd "chat" None
             (Some rdf_langString) (Some "fr");
   coerceEBV l)
  = Throw (TypeError (ReadPropertyOfUndefined "length"))
  /\ (do l <- new_StringLiteral categorize_xsd "abc" None
                (Some (xsd "string")) None;
      coerceEBV l)
     = Throw (TypeError (ReadPropertyOfUndefined "length"))
  /\ (do l <- new_PlainLiteral categorize_xsd "chat" None
                (Some rdf_langString) (Some "fr");
      toRDF host_Number_toString host_Date_toString l)
     = Return (RDFDM_literal "chat" (ArgLanguage "fr"))
  /\ (do l <- new_StringLiteral categorize_xsd "abc" None
                (Some (xsd "string")) None;
      toRDF host_Number_toString host_Date_toString l)
     = Return (RDFDM_literal "abc" (ArgDatatype (xsd "string"))).
Proof.
  split; [ | split; [ | split]].
  - unfold new_PlainLiteral, new_Literal. rewrite bind_Return.
    apply coerceEBV_string_without_lexical; [left | ]; reflexivity.
  - unfold new_StringLiteral, new_Literal. rewrite bind_Return.
    apply coerceEBV_string_without_lexical; [right | ]; reflexivity.
  - reflexivity.
  - reflexivity.
Qed.

(** ** Argument types *)

Lemma argumentType_literal (l : Literal) :
  category l <> "" -> argumentType (LiteralTerm l) = category l.
Proof.
  intros H. simpl. destruct (isEmpty (category l)) eqn:E; [ | reflexivity].
  apply isEmpty_spec in E. contradiction.
Qed.

Lemma argumentType_other (t : TermType) :
  argumentType (OtherTerm t) = TermType_string t.
Proof. reflexivity. Qed.

Lemma argumentTypes_length (args0 : list ITermExpression) :
  length (argumentTypes args0) = length args0.
Proof. unfold argumentTypes. apply length_map. Qed.

(** Two lists of types are equal when they are equal position by
    position. *)
Lemma argumentTypes_positional (args0 : list ITermExpression)
    (tys : list ArgumentType) :
  tys = argumentTypes args0 <->
  length tys = length args0
  /\ (forall i a, args0 !! i = Some a -> tys !! i = Some (argumentType a)).
Proof.
  revert tys. induction args0 as [ | a args0 IH]; intros tys.
  - simpl. split.
    + intros ->. split; [reflexivity | ].
      intros i a H. destruct i; discriminate H.
    + intros [Hlen _]. destruct tys; [reflexivity | discriminate Hlen].
  - split.
    + intros ->. split.
      * simpl. f_equal. apply argumentTypes_length.
      * intros i b H. destruct i as [ | i]; simpl in *.
        -- injection H as <-. reflexivity.
        -- apply (proj1 (IH (argumentTypes args0)) eq_refl). exact H.
    + intros [Hlen Hpos]. destruct tys as [ | ty tys]; [discriminate Hlen | ].
      simpl. f_equal.
      * specialize (Hpos 0%nat a eq_refl). simpl in Hpos. congruence.
      * apply IH. split.
        -- simpl in Hlen. congruence.
        -- intros i b H. exact (Hpos (S i) b H).
Qed.

(** ** Fixed-signature operators *)

Lemma SimpleOperator_isValidTypes (this : SimpleOperator.t)
    (args0 : list ITermExpression) :
  SimpleOperator._isValidTypes this args0 = true <->
  SimpleOperator.types this = argumentTypes args0.
Proof.
  unfold SimpleOperator._isValidTypes. apply bool_decide_eq_true.
Qed.

Lemma SimpleOperator_apply_mismatch (this : SimpleOperator.t)
    (args0 : list ITermExpression) :
  SimpleOperator.types this <> argumentTypes args0 ->
  SimpleOperator.apply this args0
  = Throw (InvalidArgumentTypes args0 (SimpleOperator.operator this)).
Proof.
  intros H. unfold SimpleOperator.apply.
  destruct (SimpleOperator._isValidTypes this args0) eqn:E; [ | reflexivity].
  apply SimpleOperator_isValidTypes in E. contradiction.
Qed.

Lemma SimpleOperator_apply_match (this : SimpleOperator.t)
    (args0 : list ITermExpression) :
  SimpleOperator.types this = argumentTypes args0 ->
  SimpleOperator.apply this args0 = SimpleOperator._apply this args0.
Proof.
  intros H. unfold SimpleOperator.apply.
  apply SimpleOperator_isValidTypes in H. rewrite H. reflexivity.
Qed.

(** C2. [apply] of a fixed-signature operator throws [InvalidArgumentTypes]
    when the types of the evaluated arguments are not, position by
    position, the declared signature; otherwise its outcome is that of the
    supplied computation on the same arguments, unchanged, so that it
    returns what the computation returns and throws [InvalidArgumentTypes]
    only if the computation does. The type of an argument is its category
    when it is a literal, and its [termType] when it is a term of another
    class. *)
Theorem SimpleOperator_apply_by_signature :
  forall (this : SimpleOperator.t) (args0 : list ITermExpression),
    (SimpleOperator.types this <> argumentTypes args0 ->
       SimpleOperator.apply this args0
       = Throw (InvalidArgumentTypes args0 (SimpleOperator.operator this)))
    /\ (SimpleOperator.types this = argumentTypes args0 ->
          SimpleOperator.apply this args0 = SimpleOperator._apply this args0
          /\ (forall t, SimpleOperator._apply this args0 = Return t ->
                SimpleOperator.apply this args0 = Return t)
          /\ (forall a o,
                SimpleOperator.apply this args0
                = Throw (InvalidArgumentTypes a o) ->
                SimpleOperator._apply this args0
                = Throw (InvalidArgumentTypes a o)))
    /\ (SimpleOperator.types this = argumentTypes args0 <->
          length (SimpleOperator.types this) = length args0
          /\ (forall i a, args0 !! i = Some a ->
                SimpleOperator.types this !! i = Some (argumentType a)))
    /\ (forall l, category l <> "" ->
          argumentType (LiteralTerm l) = category l)
    /\ (forall t, argumentType (OtherTerm t) = TermType_string t).
Proof.
  intros this args0. split; [ | split; [ | split; [ | split]]].
  - apply SimpleOperator_apply_mismatch.
  - intros H. pose proof (SimpleOperator_apply_match this args0 H) as E.
    split; [exact E | ]. split.
    + intros t Ht. rewrite E. exact Ht.
    + intros a o Ha. rewrite <- E. exact Ha.
  - apply argumentTypes_positional.
  - apply argumentType_literal.
  - apply argumentType_other.
Qed.

(** ** Construction of operators *)

Lemma SimpleOperator_new_arity (operator0 : string) (arity0 : Z)
    (args0 : list IExpression) (types0 : list ArgumentType)
    (_apply0 : SimpleEvaluator) :
  SimpleOperator.new operator0 arity0 args0 types0 _apply0
  = if (Z.of_nat (length args0) =? arity0)%Z
    then Return (SimpleOperator.mk operator0 arity0 args0 types0 _apply0)
    else Throw (InvalidArity args0 operator0).
Proof.
  unfold SimpleOperator.new. simpl.
  destruct (Z.of_nat (length args0) =? arity0)%Z; reflexivity.
Qed.

Lemma OverloadedOperator_new_arity (operator0 : string) (arity0 : Z)
    (args0 : list IExpression) (overloadMap0 : OverloadMap) :
  OverloadedOperator.new operator0 arity0 args0 overloadMap0
  = if (Z.of_nat (length args0) =? arity0)%Z
    then Return (OverloadedOperator.mk operator0 arity0 args0 overloadMap0
                   None)
    else Throw (InvalidArity args0 operator0).
Proof.
  unfold OverloadedOperator.new. simpl.
  destruct (Z.of_nat (length args0) =? arity0)%Z; reflexivity.
Qed.

(** An operator that was constructed has as many argument expressions as
    its arity, and an overload-table operator has no [_overloadMap]. *)
Lemma OverloadedOperator_new_returns (operator0 : string) (arity0 : Z)
    (args0 : list IExpression) (overloadMap0 : OverloadMap)
    (this : OverloadedOperator.t) :
  OverloadedOperator.new operator0 arity0 args0 overloadMap0 = Return this ->
  Z.of_nat (length args0) = arity0
  /\ this = OverloadedOperator.mk operator0 arity0 args0 overloadMap0 None.
Proof.
  rewrite OverloadedOperator_new_arity.
  destruct (Z.of_nat (length args0) =? arity0)%Z eqn:E; intros H.
  - apply Z.eqb_eq in E. injection H as <-. split; [exact E | reflexivity].
  - discriminate H.
Qed.

(** C5. The constructor of a fixed-signature operator and that of an
    overload-table operator throw [InvalidArity] when the number of
    argument expressions differs from the declared arity, whatever the
    signature, the table and the computation are, none of which is
    consulted; when the number equals the arity they return the operator,
    holding what was supplied. *)
Theorem operator_construction_checks_arity :
  forall (operator0 : string) (arity0 : Z) (args0 : list IExpression)
         (types0 : list ArgumentType) (_apply0 : SimpleEvaluator)
         (overloadMap0 : OverloadMap),
    (Z.of_nat (length args0) <> arity0 ->
       SimpleOperator.new operator0 arity0 args0 types0 _apply0
       = Throw (InvalidArity args0 operator0)
       /\ OverloadedOperator.new operator0 arity0 args0 overloadMap0
          = Throw (InvalidArity args0 operator0))
    /\ (Z.of_nat (length args0) = arity0 ->
          SimpleOperator.new operator0 arity0 args0 types0 _apply0
          = Return (SimpleOperator.mk operator0 arity0 args0 types0 _apply0)
          /\ OverloadedOperator.new operator0 arity0 args0 overloadMap0
             = Return (OverloadedOperator.mk operator0 arity0 args0
                         overloadMap0 None)).
Proof.
  intros. rewrite SimpleOperator_new_arity, OverloadedOperator_new_arity.
  split; intros H.
  - apply Z.eqb_neq in H. rewrite H. split; reflexivity.
  - apply Z.eqb_eq in H. rewrite H. split; reflexivity.
Qed.

(** The operator [BNODE], declared with arity 0 and given one argument
    expression, is not constructed. *)
Example new_BNODE_with_one_argument :
  SimpleOperator.new "BNODE" 0 [VariableExpression "x"] [] first_argument
  = Throw (InvalidArity [VariableExpression "x"] "BNODE").
Proof. reflexivity. Qed.

(** ** Overload-table operators *)

Lemma OverloadedOperator_apply_undefined_table (this : OverloadedOperator.t)
    (args0 : list ITermExpression) :
  OverloadedOperator._overloadMap this = None ->
  OverloadedOperator.apply this args0
  = Throw (TypeError (ReadPropertyOfUndefined "get")).
Proof.
  intros H. unfold OverloadedOperator.apply, OverloadedOperator._monomorph.
  rewrite H. reflexivity.
Qed.

(** Every overload-table operator that the constructor returns throws a
    [TypeError] on every application: its table is [undefined]. *)
Lemma OverloadedOperator_apply_constructed (operator0 : string) (arity0 : Z)
    (args0 : list IExpression) (overloadMap0 : OverloadMap)
    (this : OverloadedOperator.t) (targs : list ITermExpression) :
  OverloadedOperator.new operator0 arity0 args0 overloadMap0 = Return this ->
  OverloadedOperator.apply this targs
  = Throw (TypeError (ReadPropertyOfUndefined "get")).
Proof.
  intros H. apply OverloadedOperator_new_returns in H as [_ ->].
  apply OverloadedOperator_apply_undefined_table. reflexivity.
Qed.

(** What [apply] does on an object whose [_overloadMap] holds a table:
    the lookup, the [InvalidArgumentTypes] on a missing entry, and the call
    of the entry found. *)
Lemma OverloadedOperator_apply_with_table (this : OverloadedOperator.t)
    (m : OverloadMap) (args0 : list ITermExpression) :
  OverloadedOperator._overloadMap this = Some m ->
  OverloadedOperator.apply this args0
  = match m !! argumentTypes args0 with
    | Some func => func args0
    | None =>
        Throw (InvalidArgumentTypes args0 (OverloadedOperator.operator this))
    end.
Proof.
  intros H. unfold OverloadedOperator.apply, OverloadedOperator._monomorph.
  rewrite H. reflexivity.
Qed.

(** C3, at the failing input: the operator [+] is constructed with two
    argument expressions and a table that has an entry for two integers,
    and applied to the integer literals 1 and 2. The table does hold an
    entry under the types of these arguments, yet the lookup reads
    [this._overloadMap], which no code assigns, and [apply] throws a
    [TypeError] where the entry was to be called. Applied to an integer
    and a string, which the table does not cover, it throws the same
    [TypeError] and not [InvalidArgumentTypes]. *)
Theorem OverloadedOperator_apply_plus_integers :
  (integer_literal "1" one = Return literal_1
   /\ integer_literal "2" two = Return literal_2)
  /\ plus_overloads
       !! argumentTypes [LiteralTerm literal_1; LiteralTerm literal_2]
     = Some first_argument
  /\ (do plus <- OverloadedOperator.new "+" 2
                   [VariableExpression "x"; VariableExpression "y"]
                   plus_overloads;
      OverloadedOperator.apply plus
        [LiteralTerm literal_1; LiteralTerm literal_2])
     = Throw (TypeError (ReadPropertyOfUndefined "get"))
  /\ plus_overloads
       !! argumentTypes [LiteralTerm literal_1; LiteralTerm literal_abc]
     = None
  /\ (do plus <- OverloadedOperator.new "+" 2
                   [VariableExpression "x"; VariableExpression "y"]
                   plus_overloads;
      OverloadedOperator.apply plus
        [LiteralTerm literal_1; LiteralTerm literal_abc])
     = Throw (TypeError (ReadPropertyOfUndefined "get")).
Proof.
  split; [split; reflexivity | ]. split; [reflexivity | ].
  split; [ | split; [reflexivity | ]].
  - rewrite OverloadedOperator_new_arity. simpl.
    apply OverloadedOperator_apply_undefined_table. reflexivity.
  - rewrite OverloadedOperator_new_arity. simpl.
    apply OverloadedOperator_apply_undefined_table. reflexivity.
Qed.


(** ** The number of evaluated arguments *)

(** C9, as amended. A fixed-signature operator whose signature has as many
    entries as its declared arity throws [InvalidArgumentTypes], and not
    [InvalidArity], when [apply] receives a number of evaluated arguments
    that differs from the arity: [apply] compares the types of the
    arguments with the signature and never reads the arity. *)
Theorem SimpleOperator_apply_wrong_count :
  forall (this : SimpleOperator.t) (args0 : list ITermExpression),
    Z.of_nat (length (SimpleOperator.types this)) = SimpleOperator.arity this ->
    Z.of_nat (length args0) <> SimpleOperator.arity this ->
    SimpleOperator.apply this args0
    = Throw (InvalidArgumentTypes args0 (SimpleOperator.operator this))
    /\ throws_class (SimpleOperator.apply this args0) InvalidArgumentTypesClass
    /\ ~ throws_class (SimpleOperator.apply this args0) InvalidArityClass.
Proof.
  intros this args0 Hsig Hcount.
  assert (E : SimpleOperator.apply this args0
              = Throw (InvalidArgumentTypes args0
                         (SimpleOperator.operator this))).
  { apply SimpleOperator_apply_mismatch. intros Heq.
    apply Hcount. rewrite <- Hsig, Heq, argumentTypes_length. reflexivity. }
  split; [exact E | ]. split.
  - eexists. split; [exact E | reflexivity].
  - intros [e [He Hc]]. rewrite E in He. injection He as <-.
    discriminate Hc.
Qed.

(** C9, as amended, at [STRLEN] applied to no argument. *)
Lemma SimpleOperator_apply_wrong_count_strlen :
  Z.of_nat (length (SimpleOperator.types strlen_operator))
  = SimpleOperator.arity strlen_operator
  /\ Z.of_nat (length (@nil ITermExpression))
     <> SimpleOperator.arity strlen_operator
  /\ SimpleOperator.apply strlen_operator []
     = Throw (InvalidArgumentTypes [] "strlen").
Proof.
  split; [reflexivity | ]. split; [discriminate | ].
  apply (SimpleOperator_apply_wrong_count strlen_operator []).
  - reflexivity.
  - discriminate.
Defined.

(** C9, counterexample. An operator declared with arity 1 and an empty
    signature is constructed with one argument expression; applied to no
    evaluated argument, a number that differs from the arity, it calls the
    computation and returns its result. And the overload-table operator [+]
    of arity 2, applied to one evaluated argument, throws the [TypeError]
    of its [undefined] table and not [InvalidArgumentTypes]. *)
Lemma apply_wrong_count_not_rejected :
  (do now <- SimpleOperator.new "now" 1 [VariableExpression "x"] []
               (constant_term (OtherTerm variable));
   SimpleOperator.apply now [])
  = Return (OtherTerm variable)
  /\ (do plus <- OverloadedOperator.new "+" 2
                   [VariableExpression "x"; VariableExpression "y"]
                   plus_overloads;
      OverloadedOperator.apply plus [OtherTerm variable])
     = Throw (TypeError (ReadPropertyOfUndefined "get")).
Proof. split; reflexivity. Qed.

(** ** Construction of literals *)

Section LiteralProperties.

Variable categorize : string -> DataTypeCategory.
Variable Number_toString : number -> string.
Variable Date_toString : Date -> string.

Lemma new_Literal_with_datatype (c : LiteralClass) (tv : JsValue)
    (sv : option string) (d : NamedNode) (lang : option string) :
  new_Literal categorize c tv sv (Some d) lang
  = Return (mkLiteral c tv sv (Some d) lang (categorize (value d))).
Proof. reflexivity. Qed.

Lemma new_Literal_without_datatype (c : LiteralClass) (tv : JsValue)
    (sv : option string) (lang : option string) :
  new_Literal categorize c tv sv None lang
  = Throw (TypeError (ReadPropertyOfUndefined "value")).
Proof. reflexivity. Qed.

Lemma new_Literal_returns (c : LiteralClass) (tv : JsValue)
    (sv : option string) (dt : option NamedNode) (lang : option string)
    (l : Literal) :
  new_Literal categorize c tv sv dt lang = Return l ->
  exists d, dt = Some d
            /\ l = mkLiteral c tv sv (Some d) lang (categorize (value d)).
Proof.
  destruct dt as [d | ]; simpl; intros H.
  - exists d. split; [reflexivity | ]. injection H as <-. reflexivity.
  - discriminate H.
Qed.

Lemma new_NonLexicalLiteral_returns (tv : JsValue) (sv : option string)
    (dt : option NamedNode) (lang : option string) (l : Literal) :
  new_NonLexicalLiteral categorize tv sv dt lang = Return l ->
  l = mkLiteral NonLexicalLiteral JsUndefined sv dt lang "untyped".
Proof.
  unfold new_NonLexicalLiteral. intros H.
  apply bind_returns in H as [this [Hthis H]].
  apply new_Literal_returns in Hthis as [d [-> ->]].
  simpl in H. injection H as <-. reflexivity.
Qed.

End LiteralProperties.

(** C4. Whatever value, lexical form, datatype and language tag are
    supplied, the non-lexical literal that the constructor returns has the
    category [untyped] and the typed value [undefined]; with a datatype
    supplied the constructor does return, and the literal it returns is the
    same for every supplied value and every categorisation of the
    datatype. A literal is a value that no method updates, so this holds
    for as long as the literal exists. *)
Theorem NonLexicalLiteral_untyped :
  forall (categorize : string -> DataTypeCategory) (tv : JsValue)
         (sv : option string) (dt : option NamedNode) (lang : option string),
    (forall l, new_NonLexicalLiteral categorize tv sv dt lang = Return l ->
       category l = "untyped" /\ typedValue l = JsUndefined
       /\ class_of l = NonLexicalLiteral)
    /\ (forall d, dt = Some d ->
          new_NonLexicalLiteral categorize tv sv dt lang
          = Return (mkLiteral NonLexicalLiteral JsUndefined sv (Some d) lang
                      "untyped"))
    /\ (forall categorize' tv',
          new_NonLexicalLiteral categorize' tv' sv dt lang
          = new_NonLexicalLiteral categorize tv sv dt lang).
Proof.
  intros categorize tv sv dt lang. split; [ | split].
  - intros l H. apply new_NonLexicalLiteral_returns in H. subst l.
    repeat split.
  - intros d ->. reflexivity.
  - intros categorize' tv'. destruct dt; reflexivity.
Qed.

(** C6, as amended. Constructing a literal of any class from a value, a
    lexical form, a datatype that is present and a language tag returns the
    literal, which holds the four fields as supplied, with no check of the
    lexical form against the datatype, and whose category was computed
    from the datatype identifier alone. *)
Theorem new_Literal_succeeds_with_datatype :
  forall (categorize : string -> DataTypeCategory) (c : LiteralClass)
         (tv : JsValue) (sv : option string) (d : NamedNode)
         (lang : option string),
    new_Literal categorize c tv sv (Some d) lang
    = Return (mkLiteral c tv sv (Some d) lang (categorize (value d)))
    /\ (forall c' tv' sv' lang',
          exists l', new_Literal categorize c' tv' sv' (Some d) lang'
                     = Return l'
                     /\ strValue l' = sv'
                     /\ category l' = categorize (value d)).
Proof.
  intros categorize c tv sv d lang. split.
  - apply new_Literal_with_datatype.
  - intros c' tv' sv' lang'. eexists. split.
    + apply new_Literal_with_datatype.
    + split; reflexivity.
Qed.

(** The constructor does not parse the lexical form: the numeric literal
    with the lexical form "abc" and the datatype xsd:integer is
    constructed, as is the non-lexical literal of the same lexical form,
    which is untyped and renders "abc". *)
Example new_literal_abc :
  new_NumericLiteral categorize_xsd one (Some "abc") (Some (xsd "integer"))
    None
  = Return (mkLiteral NumericLiteral (JsNumber one) (Some "abc")
              (Some (xsd "integer")) None "integer")
  /\ new_NonLexicalLiteral categorize_xsd (JsString "abc") (Some "abc")
       (Some (xsd "integer")) None
     = Return (mkLiteral NonLexicalLiteral JsUndefined (Some "abc")
                 (Some (xsd "integer")) None "untyped")
  /\ toRDF host_Number_toString host_Date_toString
       (mkLiteral NonLexicalLiteral JsUndefined (Some "abc")
          (Some (xsd "integer")) None "untyped")
     = Return (RDFDM_literal "abc" (ArgDatatype (xsd "integer"))).
Proof. repeat split. Qed.

(** C6, counterexample. A simple string literal constructed with no
    datatype, as the optional [dataType] allows: the constructor reads
    [value] of [undefined] and throws. *)
Lemma new_StringLiteral_without_datatype :
  new_StringLiteral categorize_xsd "abc" (Some "abc") None None
  = Throw (TypeError (ReadPropertyOfUndefined "value"))
  /\ returns (new_StringLiteral categorize_xsd "abc" (Some "abc") None None)
     = false.
Proof. split; reflexivity. Qed.

(** ** Conversion to an RDF term *)

Section ToRDF.

Variable Number_toString : number -> string.
Variable Date_toString : Date -> string.

Lemma toRDF_value_lexical (l : Literal) (s : string) :
  strValue l = Some s -> s <> "" ->
  toRDF_value Number_toString Date_toString l = Return s.
Proof.
  unfold toRDF_value. intros -> Hs.
  destruct (isEmpty s) eqn:E; [ | reflexivity].
  apply isEmpty_spec in E. contradiction.
Qed.

Lemma toRDF_value_typed (l : Literal) :
  strValue l = None \/ strValue l = Some "" ->
  toRDF_value Number_toString Date_toString l
  = toString Number_toString Date_toString (typedValue l).
Proof. unfold toRDF_value. intros [-> | ->]; reflexivity. Qed.

Lemma toRDF_language (l : Literal) (lang : string) :
  language l = Some lang -> lang <> "" ->
  toRDF_languageOrDatatype l = ArgLanguage lang.
Proof.
  unfold toRDF_languageOrDatatype. intros -> Hl.
  destruct (isEmpty lang) eqn:E; [ | reflexivity].
  apply isEmpty_spec in E. contradiction.
Qed.

Lemma toRDF_datatype (l : Literal) :
  language l = None \/ language l = Some "" ->
  toRDF_languageOrDatatype l = optionalDatatype (dataType l).
Proof. unfold toRDF_languageOrDatatype. intros [-> | ->]; reflexivity. Qed.

Lemma toRDF_lexical (l : Literal) (s : string) :
  strValue l = Some s -> s <> "" ->
  toRDF Number_toString Date_toString l
  = Return (RDFDM_literal s (toRDF_languageOrDatatype l)).
Proof.
  intros Hs Hne. unfold toRDF.
  rewrite (toRDF_value_lexical l s Hs Hne). reflexivity.
Qed.

Lemma toRDF_typed (l : Literal) (v : string) :
  strValue l = None \/ strValue l = Some "" ->
  toString Number_toString Date_toString (typedValue l) = Return v ->
  toRDF Number_toString Date_toString l
  = Return (RDFDM_literal v (toRDF_languageOrDatatype l)).
Proof.
  intros Hs Hv. unfold toRDF.
  rewrite (toRDF_value_typed l Hs), Hv. reflexivity.
Qed.

Lemma toRDF_typed_undefined (l : Literal) :
  strValue l = None \/ strValue l = Some "" ->
  typedValue l = JsUndefined ->
  toRDF Number_toString Date_toString l
  = Throw (TypeError (ReadPropertyOfUndefined "toString")).
Proof.
  intros Hs Hv. unfold toRDF.
  rewrite (toRDF_value_typed l Hs), Hv. reflexivity.
Qed.

End ToRDF.

(** C7, as amended. The term that [toRDF] builds has for lexical value the
    original lexical string when that string is present and not empty;
    when it is absent, the lexical value is the string form of the typed
    value, for a typed value that has one. The one further argument
    of the term is the language tag when the tag is present and not empty,
    and otherwise the datatype identifier, unchanged. In particular a
    non-lexical literal built from the lexical form "abc" renders "abc". *)
Theorem toRDF_lexical_language_or_datatype :
  forall (Number_toString : number -> string) (Date_toString : Date -> string)
         (l : Literal),
    (forall s, strValue l = Some s -> s <> "" ->
       toRDF Number_toString Date_toString l
       = Return (RDFDM_literal s (toRDF_languageOrDatatype l)))
    /\ (forall v, strValue l = None ->
          toString Number_toString Date_toString (typedValue l) = Return v ->
          toRDF Number_toString Date_toString l
          = Return (RDFDM_literal v (toRDF_languageOrDatatype l)))
    /\ (forall lang, language l = Some lang -> lang <> "" ->
          toRDF_languageOrDatatype l = ArgLanguage lang)
    /\ (forall d, language l = None \/ language l = Some "" ->
          dataType l = Some d ->
          toRDF_languageOrDatatype l = ArgDatatype d)
    /\ (forall categorize tv d lang,
          exists abc,
            new_NonLexicalLiteral categorize tv (Some "abc") (Some d) lang
            = Return abc
            /\ toRDF Number_toString Date_toString abc
               = Return (RDFDM_literal "abc" (toRDF_languageOrDatatype abc))
            /\ (do t <- toRDF Number_toString Date_toString abc;
                Return (rdf_value t)) = Return "abc").
Proof.
  intros Number_toString Date_toString l.
  split; [ | split; [ | split; [ | split]]].
  - intros s Hs Hne. apply toRDF_lexical; assumption.
  - intros v Hs Hv. apply toRDF_typed; [left; exact Hs | exact Hv].
  - intros lang Hl Hne. apply toRDF_language; assumption.
  - intros d Hl Hd. rewrite (toRDF_datatype l Hl), Hd. reflexivity.
  - intros categorize tv d lang. eexists. split; [reflexivity | ].
    split; reflexivity.
Qed.

(** C7, counterexample. A non-lexical literal built from the empty lexical
    form of an integer: the lexical string is present, yet [toRDF] takes
    the string form of the typed value, which is [undefined], and throws.
    And a string literal with the language tag "en" and the datatype
    xsd:string: the term is built from the tag alone, so that the same
    literal with the datatype xsd:integer gives the same term. *)
Lemma toRDF_empty_lexical_and_tagged :
  (do l <- new_NonLexicalLiteral categorize_xsd JsUndefined (Some "")
             (Some (xsd "integer")) None;
   toRDF host_Number_toString host_Date_toString l)
  = Throw (TypeError (ReadPropertyOfUndefined "toString"))
  /\ (do l <- new_StringLiteral categorize_xsd "hello" (Some "hello")
                (Some (xsd "string")) (Some "en");
      toRDF host_Number_toString host_Date_toString l)
     = Return (RDFDM_literal "hello" (ArgLanguage "en"))
  /\ (do l <- new_StringLiteral categorize_xsd "hello" (Some "hello")
                (Some (xsd "integer")) (Some "en");
      toRDF host_Number_toString host_Date_toString l)
     = Return (RDFDM_literal "hello" (ArgLanguage "en")).
Proof. repeat split. Qed.

(** C10, as amended. A literal whose lexical string is present and empty,
    and whose typed value has a string form, is rendered with that string
    form as lexical value, in place of the empty lexical string: the
    presence of the lexical string is decided by its truthiness. *)
Theorem toRDF_empty_lexical_uses_typed_value :
  forall (Number_toString : number -> string) (Date_toString : Date -> string)
         (l : Literal) (v : string),
    strValue l = Some "" ->
    toString Number_toString Date_toString (typedValue l) = Return v ->
    toRDF Number_toString Date_toString l
    = Return (RDFDM_literal v (toRDF_languageOrDatatype l))
    /\ (do t <- toRDF Number_toString Date_toString l; Return (rdf_value t))
       = Return v.
Proof.
  intros Number_toString Date_toString l v Hs Hv.
  assert (E : toRDF Number_toString Date_toString l
              = Return (RDFDM_literal v (toRDF_languageOrDatatype l))).
  { apply toRDF_typed; [right; exact Hs | exact Hv]. }
  split; [exact E | ]. rewrite E. reflexivity.
Qed.

(** C10, as amended, at the boolean [true] with an empty lexical string:
    it is rendered as "true". *)
Lemma toRDF_empty_lexical_true :
  strValue true_without_lexical = Some ""
  /\ toString host_Number_toString host_Date_toString
       (typedValue true_without_lexical) = Return "true"
  /\ toRDF host_Number_toString host_Date_toString true_without_lexical
     = Return (RDFDM_literal "true" (ArgDatatype (xsd "boolean"))).
Proof.
  split; [reflexivity | ]. split; [reflexivity | ].
  apply (toRDF_empty_lexical_uses_typed_value host_Number_toString
           host_Date_toString true_without_lexical "true");
    reflexivity.
Defined.

(** C10, counterexample. A non-lexical literal built from the empty
    lexical form of a boolean: its typed value is [undefined] and has no
    string form, and [toRDF] throws, so that no lexical value is output. *)
Lemma toRDF_empty_lexical_non_lexical :
  (do l <- new_NonLexicalLiteral categorize_xsd JsUndefined (Some "")
             (Some (xsd "boolean")) None;
   Return (strValue l))
  = Return (Some "")
  /\ (do l <- new_NonLexicalLiteral categorize_xsd JsUndefined (Some "")
                (Some (xsd "boolean")) None;
      toRDF host_Number_toString host_Date_toString l)
     = Throw (TypeError (ReadPropertyOfUndefined "toString")).
Proof. split; reflexivity. Qed.

(** * Further properties *)

(** ** Where [toRDF] fails *)

Lemma toString_defined (Number_toString : number -> string)
    (Date_toString : Date -> string) (v : JsValue) :
  v <> JsUndefined ->
  exists s, toString Number_toString Date_toString v = Return s.
Proof.
  destruct v; intros H; simpl; try (eexists; reflexivity).
  contradiction H. reflexivity.
Qed.

Lemma toString_throws (Number_toString : number -> string)
    (Date_toString : Date -> string) (v : JsValue) (e : Error) :
  toString Number_toString Date_toString v = Throw e ->
  v = JsUndefined /\ e = TypeError (ReadPropertyOfUndefined "toString").
Proof.
  destruct v; simpl; intros H; try discriminate H.
  injection H as <-. split; reflexivity.
Qed.

(** The lexical string is used when it has a first character. *)
Lemma toRDF_value_cases (Number_toString : number -> string)
    (Date_toString : Date -> string) (l : Literal) :
  (exists s, strValue l = Some s /\ s <> ""
             /\ toRDF_value Number_toString Date_toString l = Return s)
  \/ ((strValue l = None \/ strValue l = Some "")
      /\ toRDF_value Number_toString Date_toString l
         = toString Number_toString Date_toString (typedValue l)).
Proof.
  unfold toRDF_value. destruct (strValue l) as [[ | c s] | ].
  - right. split; [right | ]; reflexivity.
  - left. exists (String c s). repeat split. discriminate.
  - right. split; [left | ]; reflexivity.
Qed.

Lemma toRDF_throws (Number_toString : number -> string)
    (Date_toString : Date -> string) (l : Literal) (e : Error) :
  toRDF Number_toString Date_toString l = Throw e ->
  typedValue l = JsUndefined
  /\ (strValue l = None \/ strValue l = Some "")
  /\ e = TypeError (ReadPropertyOfUndefined "toString").
Proof.
  unfold toRDF.
  destruct (toRDF_value_cases Number_toString Date_toString l)
    as [[s [_ [_ E]]] | [Hs E]]; rewrite E.
  - simpl. intros H. discriminate H.
  - destruct (toString Number_toString Date_toString (typedValue l))
      as [v | e'] eqn:Ev; simpl; intros H; [discriminate H | ].
    injection H as <-. apply toString_throws in Ev as [Hv He].
    split; [exact Hv | ]. split; [exact Hs | exact He].
Qed.

(** X2. [toRDF] throws exactly when the typed value is [undefined] and the
    lexical string is absent or empty; the error is then the [TypeError] of
    the call of [toString] on [undefined], and [toRDF] throws no other
    error. On every literal whose typed value is defined it returns a
    term. *)
Theorem toRDF_throws_iff :
  forall (Number_toString : number -> string) (Date_toString : Date -> string)
         (l : Literal),
    (toRDF Number_toString Date_toString l
     = Throw (TypeError (ReadPropertyOfUndefined "toString"))
     <-> typedValue l = JsUndefined
         /\ (strValue l = None \/ strValue l = Some ""))
    /\ (forall e, toRDF Number_toString Date_toString l = Throw e ->
          e = TypeError (ReadPropertyOfUndefined "toString"))
    /\ (typedValue l <> JsUndefined ->
          exists t, toRDF Number_toString Date_toString l = Return t).
Proof.
  intros Number_toString Date_toString l. split; [split | split].
  - intros H. apply toRDF_throws in H as [Hv [Hs _]]. split; assumption.
  - intros [Hv Hs]. apply toRDF_typed_undefined; assumption.
  - intros e H. apply toRDF_throws in H as [_ [_ He]]. exact He.
  - intros Hv.
    destruct (toRDF Number_toString Date_toString l) as [t | e] eqn:E.
    + exists t. reflexivity.
    + apply toRDF_throws in E as [Hu _]. contradiction.
Qed.

(** ** What the effective boolean value depends on *)

(** X1. The effective boolean value of a constructed literal is decided by
    its class alone, and neither the datatype, the category computed from
    it, nor the language tag is consulted. A numeric literal is false
    exactly on 0, -0 and NaN, so both infinities are true; a boolean
    literal gives its value; a plain or a simple string literal gives
    whether its lexical string is not empty, whatever its typed value is,
    and throws when it has no lexical string; a date and time literal, a
    non-lexical literal and a literal of the base class throw the
    [TypeError] of [Term.coerceEBV]. *)
Theorem coerceEBV_of_constructed :
  forall (categorize : string -> DataTypeCategory) (sv : option string)
         (d : NamedNode) (lang : option string),
    (forall x,
       (do l <- new_NumericLiteral categorize x sv (Some d) lang; coerceEBV l)
       = Return (negb (isZero x || isNaN x)))
    /\ (forall s,
          (do l <- new_NumericLiteral categorize (S754_infinity s) sv (Some d)
                     lang;
           coerceEBV l) = Return true)
    /\ (forall b,
          (do l <- new_BooleanLiteral categorize b sv (Some d) lang;
           coerceEBV l) = Return b)
    /\ (forall s,
          (do l <- new_PlainLiteral categorize s sv (Some d) lang; coerceEBV l)
          = match sv with
            | Some lexical => Return (negb (isEmpty lexical))
            | None => Throw (TypeError (ReadPropertyOfUndefined "length"))
            end
          /\ (do l <- new_StringLiteral categorize s sv (Some d) lang;
              coerceEBV l)
             = match sv with
               | Some lexical => Return (negb (isEmpty lexical))
               | None => Throw (TypeError (ReadPropertyOfUndefined "length"))
               end)
    /\ (forall t tv,
          (do l <- new_DateTimeLiteral categorize t sv (Some d) lang;
           coerceEBV l) = Term_coerceEBV
          /\ (do l <- new_NonLexicalLiteral categorize tv sv (Some d) lang;
              coerceEBV l) = Term_coerceEBV
          /\ (do l <- new_Literal categorize BaseLiteral tv sv (Some d) lang;
              coerceEBV l) = Term_coerceEBV).
Proof.
  intros categorize sv d lang.
  split; [ | split; [ | split; [ | split]]].
  - intros x. reflexivity.
  - intros s. reflexivity.
  - intros b. reflexivity.
  - intros s. unfold new_PlainLiteral, new_StringLiteral, new_Literal.
    rewrite !bind_Return.
    unfold coerceEBV, PlainLiteral_coerceEBV, StringLiteral_coerceEBV. simpl.
    destruct sv as [lexical | ]; [ | split; reflexivity].
    rewrite isEmpty_length. split; reflexivity.
  - intros t tv. repeat split.
Qed.

(** ** Strings rendered back *)

(** X3. A plain or a simple string literal whose lexical string is its
    typed value is rendered with that string as lexical value, whatever the
    string is: for the empty string the typed value is taken in place of
    the lexical string, and it is the same string. Its effective boolean
    value is true exactly when the rendered lexical value is not empty. *)
Theorem string_literal_rendered_back :
  forall (categorize : string -> DataTypeCategory)
         (Number_toString : number -> string) (Date_toString : Date -> string)
         (s : string) (d : NamedNode) (lang : option string),
    (do l <- new_StringLiteral categorize s (Some s) (Some d) lang;
     do t <- toRDF Number_toString Date_toString l;
     Return (rdf_value t)) = Return s
    /\ (do l <- new_PlainLiteral categorize s (Some s) (Some d) lang;
        do t <- toRDF Number_toString Date_toString l;
        Return (rdf_value t)) = Return s
    /\ (do l <- new_StringLiteral categorize s (Some s) (Some d) lang;
        do t <- toRDF Number_toString Date_toString l;
        do b <- coerceEBV l;
        Return (Bool.eqb b (negb (isEmpty (rdf_value t))))) = Return true
    /\ (do l <- new_PlainLiteral categorize s (Some s) (Some d) lang;
        do t <- toRDF Number_toString Date_toString l;
        do b <- coerceEBV l;
        Return (Bool.eqb b (negb (isEmpty (rdf_value t))))) = Return true.
Proof.
  intros categorize Number_toString Date_toString s d lang.
  destruct s as [ | c s]; repeat split.
Qed.

(** X4. A non-lexical literal is rendered exactly when its lexical string
    is present and not empty, and the lexical value of the term is then that
    string, whatever value and datatype were supplied; built with an absent
    or an empty lexical string it cannot be rendered: [toRDF] throws. *)
Theorem non_lexical_literal_rendered :
  forall (categorize : string -> DataTypeCategory)
         (Number_toString : number -> string) (Date_toString : Date -> string)
         (tv : JsValue) (d : NamedNode) (lang : option string),
    (forall s, s <> "" ->
       (do l <- new_NonLexicalLiteral categorize tv (Some s) (Some d) lang;
        do t <- toRDF Number_toString Date_toString l;
        Return (rdf_value t)) = Return s)
    /\ (do l <- new_NonLexicalLiteral categorize tv (Some "") (Some d) lang;
        toRDF Number_toString Date_toString l)
       = Throw (TypeError (ReadPropertyOfUndefined "toString"))
    /\ (do l <- new_NonLexicalLiteral categorize tv None (Some d) lang;
        toRDF Number_toString Date_toString l)
       = Throw (TypeError (ReadPropertyOfUndefined "toString")).
Proof.
  intros categorize Number_toString Date_toString tv d lang.
  split; [ | split; reflexivity].
  intros s Hs. destruct s as [ | c s].
  - contradiction Hs. reflexivity.
  - reflexivity.
Qed.

(** ** The datatype of a constructed literal *)



(** ** The types of the arguments *)

Lemma argumentType_nonempty (a : ITermExpression) : argumentType a <> "".
Proof.
  destruct a as [l | t]; simpl.
  - destruct (isEmpty (category l)) eqn:E; [discriminate | ].
    intros H. apply isEmpty_spec in H. congruence.
  - destruct t; discriminate.
Qed.

(** X6. The type of an evaluated argument is never the empty string: a
    literal whose category is empty counts as ["literal"]. A fixed-signature
    operator whose signature holds the empty string therefore accepts no
    list of arguments: every application throws [InvalidArgumentTypes]. *)
Theorem SimpleOperator_blank_signature_rejects :
  forall (this : SimpleOperator.t) (args0 : list ITermExpression),
    In "" (SimpleOperator.types this) ->
    (forall a, argumentType a <> "")
    /\ SimpleOperator.apply this args0
       = Throw (InvalidArgumentTypes args0 (SimpleOperator.operator this)).
Proof.
  intros this args0 Hin. split; [exact argumentType_nonempty | ].
  apply SimpleOperator_apply_mismatch. intros Heq.
  rewrite Heq in Hin. unfold argumentTypes in Hin.
  apply in_map_iff in Hin as [a [Ha _]].
  exact (argumentType_nonempty a Ha).
Qed.

(** X6, at an operator of signature [""] applied to the string "abc". *)
Lemma SimpleOperator_blank_signature_rejects_blank :
  In "" (SimpleOperator.types blank_signature_operator)
  /\ SimpleOperator.apply blank_signature_operator [LiteralTerm literal_abc]
     = Throw (InvalidArgumentTypes [LiteralTerm literal_abc] "blank").
Proof.
  split; [left; reflexivity | ].
  apply (SimpleOperator_blank_signature_rejects blank_signature_operator
           [LiteralTerm literal_abc]).
  left. reflexivity.
Defined.

(** X7. A non-lexical literal has the argument type ["untyped"], whatever
    its datatype is. A fixed-signature operator that receives one at a
    position where its signature does not say ["untyped"] throws
    [InvalidArgumentTypes] and does not call its computation. *)
Theorem SimpleOperator_rejects_non_lexical :
  forall (categorize : string -> DataTypeCategory) (tv : JsValue)
         (sv : option string) (dt : option NamedNode) (lang : option string)
         (l : Literal) (this : SimpleOperator.t)
         (args0 : list ITermExpression) (i : nat),
    new_NonLexicalLiteral categorize tv sv dt lang = Return l ->
    args0 !! i = Some (LiteralTerm l) ->
    SimpleOperator.types this !! i <> Some "untyped" ->
    argumentType (LiteralTerm l) = "untyped"
    /\ SimpleOperator.apply this args0
       = Throw (InvalidArgumentTypes args0 (SimpleOperator.operator this)).
Proof.
  intros categorize tv sv dt lang l this args0 i Hnew Hi Hsig.
  apply new_NonLexicalLiteral_returns in Hnew. subst l.
  split; [reflexivity | ].
  apply SimpleOperator_apply_mismatch. intros Heq.
  apply argumentTypes_positional in Heq as [_ Hpos].
  apply Hsig. exact (Hpos i _ Hi).
Qed.

(** X7, at [ABS], which takes an integer, applied to the non-lexical
    literal "abc" of datatype xsd:integer. *)
Lemma SimpleOperator_rejects_non_lexical_abs :
  new_NonLexicalLiteral categorize_xsd (JsString "abc") (Some "abc")
    (Some (xsd "integer")) None = Return non_lexical_abc
  /\ argumentType (LiteralTerm non_lexical_abc) = "untyped"
  /\ SimpleOperator.apply abs_operator [LiteralTerm non_lexical_abc]
     = Throw (InvalidArgumentTypes [LiteralTerm non_lexical_abc] "abs").
Proof.
  split; [reflexivity | ].
  apply (SimpleOperator_rejects_non_lexical categorize_xsd (JsString "abc")
           (Some "abc") (Some (xsd "integer")) None non_lexical_abc
           abs_operator [LiteralTerm non_lexical_abc] 0%nat).
  - reflexivity.
  - reflexivity.
  - discriminate.
Defined.

(** X8. When [apply] of a fixed-signature operator returns a term, the
    computation returned that term on the same arguments, there were as
    many arguments as the signature has entries, and each argument had the
    type that the signature declares at its position. *)
Theorem SimpleOperator_apply_returns_sound :
  forall (this : SimpleOperator.t) (args0 : list ITermExpression)
         (t : ITermExpression),
    SimpleOperator.apply this args0 = Return t ->
    SimpleOperator._apply this args0 = Return t
    /\ length args0 = length (SimpleOperator.types this)
    /\ (forall i a, args0 !! i = Some a ->
          SimpleOperator.types this !! i = Some (argumentType a)).
Proof.
  intros this args0 t H.
  destruct (decide (SimpleOperator.types this = argumentTypes args0))
    as [Heq | Hne].
  - rewrite (SimpleOperator_apply_match this args0 Heq) in H.
    split; [exact H | ].
    apply argumentTypes_positional in Heq as [Hlen Hpos].
    split; [symmetry; exact Hlen | exact Hpos].
  - rewrite (SimpleOperator_apply_mismatch this args0 Hne) in H.
    discriminate H.
Qed.

(** X8, at [STRLEN] applied to the string "abc". *)
Lemma SimpleOperator_apply_returns_sound_strlen :
  SimpleOperator.apply strlen_operator [LiteralTerm literal_abc]
  = Return (LiteralTerm literal_abc)
  /\ SimpleOperator._apply strlen_operator [LiteralTerm literal_abc]
     = Return (LiteralTerm literal_abc)
  /\ length [LiteralTerm literal_abc]
     = length (SimpleOperator.types strlen_operator).
Proof.
  split; [reflexivity | ].
  pose proof (SimpleOperator_apply_returns_sound strlen_operator
                [LiteralTerm literal_abc] (LiteralTerm literal_abc) eq_refl)
    as [H1 [H2 _]].
  split; [exact H1 | exact H2].
Defined.

(** ** Operators that were constructed *)

(** X9. A fixed-signature or an overload-table operator that the
    constructor returns holds the operator name, the arity and the
    argument expressions that were supplied, and has exactly as many
    argument expressions as its arity; with a negative arity neither is
    ever constructed. *)
Theorem constructed_operator_arity :
  forall (operator0 : string) (arity0 : Z) (args0 : list IExpression)
         (types0 : list ArgumentType) (_apply0 : SimpleEvaluator)
         (overloadMap0 : OverloadMap),
    (forall this,
       SimpleOperator.new operator0 arity0 args0 types0 _apply0 = Return this ->
       SimpleOperator.operator this = operator0
       /\ SimpleOperator.args this = args0
       /\ SimpleOperator.types this = types0
       /\ Z.of_nat (length (SimpleOperator.args this))
          = SimpleOperator.arity this)
    /\ (forall this,
          OverloadedOperator.new operator0 arity0 args0 overloadMap0
          = Return this ->
          OverloadedOperator.operator this = operator0
          /\ OverloadedOperator.args this = args0
          /\ OverloadedOperator.overloadMap this = overloadMap0
          /\ Z.of_nat (length (OverloadedOperator.args this))
             = OverloadedOperator.arity this)
    /\ ((arity0 < 0)%Z ->
          SimpleOperator.new operator0 arity0 args0 types0 _apply0
          = Throw (InvalidArity args0 operator0)
          /\ OverloadedOperator.new operator0 arity0 args0 overloadMap0
             = Throw (InvalidArity args0 operator0)).
Proof.
  intros operator0 arity0 args0 types0 _apply0 overloadMap0.
  rewrite SimpleOperator_new_arity, OverloadedOperator_new_arity.
  destruct (Z.of_nat (length args0) =? arity0)%Z eqn:E.
  - apply Z.eqb_eq in E. split; [ | split].
    + intros this H. injection H as <-. simpl. repeat split. exact E.
    + intros this H. injection H as <-. simpl. repeat split. exact E.
    + intros Hneg. lia.
  - split; [ | split].
    + intros this H. discriminate H.
    + intros this H. discriminate H.
    + intros _. split; reflexivity.
Qed.

(** X10. Constructing an overload-table operator and applying it never
    returns a term, whatever the table and the arguments are: the
    constructor throws [InvalidArity], or [apply] throws the [TypeError] of
    its [undefined] table. *)
Theorem OverloadedOperator_new_apply_throws :
  forall (operator0 : string) (arity0 : Z) (args0 : list IExpression)
         (overloadMap0 : OverloadMap) (targs : list ITermExpression),
    (do this <- OverloadedOperator.new operator0 arity0 args0 overloadMap0;
     OverloadedOperator.apply this targs)
    = (if (Z.of_nat (length args0) =? arity0)%Z
       then Throw (TypeError (ReadPropertyOfUndefined "get"))
       else Throw (InvalidArity args0 operator0))
    /\ returns
         (do this <- OverloadedOperator.new operator0 arity0 args0 overloadMap0;
          OverloadedOperator.apply this targs) = false.
Proof.
  intros operator0 arity0 args0 overloadMap0 targs.
  assert (E : (do this <- OverloadedOperator.new operator0 arity0 args0
                            overloadMap0;
               OverloadedOperator.apply this targs)
              = (if (Z.of_nat (length args0) =? arity0)%Z
                 then Throw (TypeError (ReadPropertyOfUndefined "get"))
                 else Throw (InvalidArity args0 operator0))).
  { rewrite OverloadedOperator_new_arity.
    destruct (Z.of_nat (length args0) =? arity0)%Z; [ | reflexivity].
    rewrite bind_Return.
    apply OverloadedOperator_apply_undefined_table. reflexivity. }
  split; [exact E | ]. rewrite E.
  destruct (Z.of_nat (length args0) =? arity0)%Z; reflexivity.
Qed.

(** ** An overload table in place *)

(** X11. On an operator object whose [_overloadMap] holds a table, [apply]
    calls the entry stored under the types of the arguments: after an entry
    is put under these types, [apply] gives the outcome of that entry on the
    arguments, and the entries under other keys are left as they were. *)
Theorem OverloadedOperator_apply_after_insert :
  forall (this : OverloadedOperator.t) (m : OverloadMap)
         (func : SimpleEvaluator) (args0 others : list ITermExpression),
    OverloadedOperator._overloadMap this
    = Some (<[argumentTypes args0 := func]> m) ->
    OverloadedOperator.apply this args0 = func args0
    /\ (argumentTypes others <> argumentTypes args0 ->
          OverloadedOperator.apply this others
          = match m !! argumentTypes others with
            | Some other => other others
            | None =>
                Throw (InvalidArgumentTypes others
                         (OverloadedOperator.operator this))
            end).
Proof.
  intros this m func args0 others H. split.
  - rewrite (OverloadedOperator_apply_with_table this _ args0 H).
    rewrite lookup_insert_eq. reflexivity.
  - intros Hne.
    rewrite (OverloadedOperator_apply_with_table this _ others H).
    rewrite lookup_insert_ne; [reflexivity | congruence].
Qed.

(** X11, at the table of [+], put under the types of two integers. *)
Lemma OverloadedOperator_apply_after_insert_plus :
  OverloadedOperator._overloadMap
    (OverloadedOperator.mk "+" 2
       [VariableExpression "x"; VariableExpression "y"] plus_overloads
       (Some (<[argumentTypes [LiteralTerm literal_1; LiteralTerm literal_2]
                := first_argument]> ∅)))
  = Some (<[argumentTypes [LiteralTerm literal_1; LiteralTerm literal_2]
            := first_argument]> ∅)
  /\ OverloadedOperator.apply
       (OverloadedOperator.mk "+" 2
          [VariableExpression "x"; VariableExpression "y"] plus_overloads
          (Some (<[argumentTypes [LiteralTerm literal_1; LiteralTerm literal_2]
                   := first_argument]> ∅)))
       [LiteralTerm literal_1; LiteralTerm literal_2]
     = first_argument [LiteralTerm literal_1; LiteralTerm literal_2].
Proof.
  split; [reflexivity | ].
  apply (OverloadedOperator_apply_after_insert _ ∅ first_argument
           [LiteralTerm literal_1; LiteralTerm literal_2] []).
  reflexivity.
Defined.

(** X12. On an operator object whose [_overloadMap] holds a table all of
    whose keys have the same number of types, [apply] on any other number
    of arguments throws [InvalidArgumentTypes] and not [InvalidArity]: no
    key has the length of the list of their types. *)
Theorem OverloadedOperator_table_wrong_count :
  forall (this : OverloadedOperator.t) (m : OverloadMap) (n : nat)
         (args0 : list ITermExpression),
    OverloadedOperator._overloadMap this = Some m ->
    (forall key func, m !! key = Some func -> length key = n) ->
    length args0 <> n ->
    OverloadedOperator.apply this args0
    = Throw (InvalidArgumentTypes args0 (OverloadedOperator.operator this)).
Proof.
  intros this m n args0 Hm Hkeys Hlen.
  rewrite (OverloadedOperator_apply_with_table this m args0 Hm).
  destruct (m !! argumentTypes args0) as [func | ] eqn:E; [ | reflexivity].
  apply Hkeys in E. rewrite argumentTypes_length in E. contradiction.
Qed.

(** X12, at the table of [+] and one argument. *)
Lemma OverloadedOperator_table_wrong_count_plus :
  OverloadedOperator._overloadMap plus_with_table = Some plus_overloads
  /\ (forall key func,
        plus_overloads !! key = Some func -> length key = 2%nat)
  /\ length [LiteralTerm literal_1] <> 2%nat
  /\ OverloadedOperator.apply plus_with_table [LiteralTerm literal_1]
     = Throw (InvalidArgumentTypes [LiteralTerm literal_1] "+").
Proof.
  assert (Hkeys : forall key func,
            plus_overloads !! key = Some func -> length key = 2%nat).
  { intros key func H. unfold plus_overloads in H.
    apply lookup_singleton_Some in H as [<- _]. reflexivity. }
  split; [reflexivity | ]. split; [exact Hkeys | ].
  split; [discriminate | ].
  apply (OverloadedOperator_table_wrong_count plus_with_table plus_overloads
           2%nat [LiteralTerm literal_1]).
  - reflexivity.
  - exact Hkeys.
  - discriminate.
Defined.
